(** * dedup_index: in-place XSLT deduplication of doxygen's index.xml

    A shallow embedding of [doc/thirdparty/doxygen/dedup_index.py].  The
    script parses an XML file and a stylesheet with lxml, applies the
    stylesheet, prints the result back into the file it read, and prints a
    confirmation line on standard output.

    The script is a straight line of calls into lxml and the operating
    system.  The model keeps that shape: a small state-and-exception monad over
    a [world] (the files, the paths the system refuses to open for writing,
    the characters the encoding of text files lacks, the room left on the
    device, and standard output), in which every call the script makes is
    recorded in order.  lxml itself is an interface ([Etree]): the claims hold for every
    implementation of it, and a small executable implementation ([Toy]) runs
    the script on concrete files. *)

From stdpp Require Import base strings gmap list.

(** ** Text *)

(** The line feed that Python's [print] appends. *)
Definition nl : string := String (Ascii.ascii_of_nat 10) EmptyString.

(** Number of line feeds in a text: the number of lines a reader of the
    stream sees completed. *)
Fixpoint count_nl (s : string) : nat :=
  match s with
  | EmptyString => 0
  | String c rest =>
      (if Ascii.eqb c (Ascii.ascii_of_nat 10) then 1 else 0) + count_nl rest
  end.

(** ** lxml.etree, as the script uses it *)

(** [ET.parse] reads a file and checks well-formedness, [ET.XSLT] compiles a
    parsed stylesheet, calling the compiled object applies it, and [str]
    serialises the result.  Each can raise; [None] stands for the exception. *)
Class Etree := {
  tree : Type;
  xslt_program : Type;
  result_tree : Type;
  parse_text : string -> option tree;
  XSLT : tree -> option xslt_program;
  apply_xslt : xslt_program -> tree -> option result_tree;
  str : result_tree -> option string
}.

(** ** The world the script runs in *)

Record world := World {
  files : gmap string string;   (* path |-> text of the file *)
  unwritable : gset string;     (* paths that open(path, 'w') refuses *)
  unencodable : gset Ascii.ascii;
    (* characters the encoding of text files cannot encode *)
  room : gmap string nat;
    (* path |-> characters the device can hold for the file, if limited *)
  stdout : string               (* everything printed so far *)
}.

Definition set_files (f : gmap string string -> gmap string string)
    (w : world) : world :=
  {| files := f (files w); unwritable := unwritable w;
     unencodable := unencodable w; room := room w; stdout := stdout w |}.

Definition set_stdout (f : string -> string) (w : world) : world :=
  {| files := files w; unwritable := unwritable w;
     unencodable := unencodable w; room := room w;
     stdout := f (stdout w) |}.

(** A text the encoding can take: none of its characters is missing. *)
Definition encodable (missing : gset Ascii.ascii) (data : string) : bool :=
  forallb (fun c => bool_decide (c ∉ missing)) (String.list_ascii_of_string data).

(** A text the device has room for at [path]. *)
Definition fits (left : gmap string nat) (path text : string) : bool :=
  match left !! path with
  | Some n => bool_decide (String.length text ≤ n)
  | None => true
  end.

(** What of a text reaches the device at [path]. *)
Definition flushed (left : gmap string nat) (path text : string) : string :=
  match left !! path with
  | Some n => String.substring 0 n text
  | None => text
  end.

(** The calls the script makes, in the order it makes them.  A call is
    recorded when it is made, whether or not it then raises. *)
Inductive call :=
| Parse (path : string)                 (* ET.parse(path) *)
| Compile                               (* ET.XSLT(xslt) *)
| Apply                                 (* transform(doc) *)
| Open (path : string)                  (* open(path, 'w') *)
| Write (path : string) (data : string) (* f.write(data) *)
| Close (path : string)                 (* f.__exit__: f.close() *)
| Stdout (data : string).               (* sys.stdout.write(data) *)

Inductive io := Reading | Writing | Closing.

Inductive exn :=
| IndexError                          (* sys.argv[1] *)
| OSError (op : io) (path : string)
    (* the file cannot be opened, or not all of it written when closed *)
| XMLSyntaxError (path : string)      (* ET.parse: not well-formed *)
| XSLTParseError                      (* ET.XSLT: not a stylesheet *)
| XSLTApplyError                      (* transform(doc) raised *)
| SerialisationError                  (* str(transformed_doc) raised *)
| UnicodeEncodeError.                 (* f.write: a character has no code *)

(** ** The monad: state, a log of calls, and exceptions *)

Record outcome (A : Type) := Outcome {
  calls : list call;
  final : world;
  value : exn + A
}.
Arguments Outcome {A} _ _ _.
Arguments calls {A} _.
Arguments final {A} _.
Arguments value {A} _.

Definition M (A : Type) : Type := world -> outcome A.

Definition ret {A} (a : A) : M A := fun w => Outcome [] w (inr a).

Definition raise {A} (e : exn) : M A := fun w => Outcome [] w (inl e).

(** An exception skips the rest; the effects made so far stay. *)
Definition bind {A B} (m : M A) (k : A -> M B) : M B := fun w =>
  match m w with
  | Outcome cs w' (inl e) => Outcome cs w' (inl e)
  | Outcome cs w' (inr a) =>
      match k a w' with
      | Outcome cs' w'' v => Outcome (cs ++ cs') w'' v
      end
  end.

Notation "x <- m ;; k" := (bind m (fun x => k))
  (at level 100, m at next level, right associativity).
Notation "m ;;; k" := (bind m (fun _ => k))
  (at level 100, right associativity).

(** [try: m finally: c]: [c] runs whether or not [m] raised.  An exception
    of [c] takes over; otherwise that of [m], if any, goes on. *)
Definition finally {A} (m : M A) (c : M unit) : M A := fun w =>
  match m w with
  | Outcome cs w' v =>
      match c w' with
      | Outcome cs' w'' (inl e) => Outcome (cs ++ cs') w'' (inl e)
      | Outcome cs' w'' (inr _) => Outcome (cs ++ cs') w'' v
      end
  end.

Definition log (c : call) : M unit := fun w => Outcome [c] w (inr tt).

Definition get_world : M world := fun w => Outcome [] w (inr w).

Definition modify (f : world -> world) : M unit :=
  fun w => Outcome [] (f w) (inr tt).

Definition or_raise {A} (o : option A) (e : exn) : M A :=
  match o with
  | Some a => ret a
  | None => raise e
  end.

(** ** Python's built-ins *)

(** A text file object opened for writing. *)
Record file := File { name : string }.

(** [open(path, 'w')]: creates the file or truncates it to nothing. *)
Definition open_w (path : string) : M file :=
  log (Open path) ;;;
  w <- get_world ;;
  if decide (path ∈ unwritable w) then raise (OSError Writing path)
  else modify (set_files <[path := EmptyString]>) ;;; ret (File path).

(** [f.write(data)]: the text is encoded, which raises when a character has
    no code, and goes after what the file holds.  (Python buffers it until
    the file is closed, and nothing reads the file in between: a device
    without room shows when the buffer is flushed, in [file_close].) *)
Definition file_write (f : file) (data : string) : M unit :=
  log (Write (name f) data) ;;;
  w <- get_world ;;
  if encodable (unencodable w) data then
    modify (set_files (fun fs =>
      <[name f := default EmptyString (fs !! name f) +:+ data]> fs))
  else raise UnicodeEncodeError.

(** [f.close()]: what was written is flushed to the device.  When the device
    has no room for all of it, the file is left with what went through and
    the call raises. *)
Definition file_close (f : file) : M unit :=
  log (Close (name f)) ;;;
  w <- get_world ;;
  if fits (room w) (name f) (default EmptyString (files w !! name f)) then
    ret tt
  else
    modify (set_files (fun fs =>
      <[name f :=
          flushed (room w) (name f) (default EmptyString (fs !! name f))]>
        fs)) ;;;
    raise (OSError Closing (name f)).

(** [with open(path, 'w') as f: body]. *)
Definition with_open_w {A} (path : string) (body : file -> M A) : M A :=
  f <- open_w path ;;
  finally (body f) (file_close f).

(** [print(s)] for a string [s]: the text and a line feed, to standard
    output. *)
Definition print (s : string) : M unit :=
  log (Stdout s) ;;;
  modify (set_stdout (fun out => out +:+ s)) ;;;
  log (Stdout nl) ;;;
  modify (set_stdout (fun out => out +:+ nl)).

(** [sys.argv[i]]. *)
Definition subscript (argv : list string) (i : nat) : M string :=
  or_raise (argv !! i) IndexError.

Section Script.
Context `{Etree}.

(** The value CMake puts in place of [@PROJECT_DOC_DIR@] when it configures
    the script. *)
Variable PROJECT_DOC_DIR : string.

(** [ET.parse(path)]. *)
Definition ET_parse (path : string) : M tree :=
  log (Parse path) ;;;
  w <- get_world ;;
  text <- or_raise (files w !! path) (OSError Reading path) ;;
  or_raise (parse_text text) (XMLSyntaxError path).

(** [ET.XSLT(xslt)]. *)
Definition ET_XSLT (xslt : tree) : M xslt_program :=
  log Compile ;;;
  or_raise (XSLT xslt) XSLTParseError.

(** [transform(doc)]. *)
Definition call_transform (transform : xslt_program) (doc : tree)
    : M result_tree :=
  log Apply ;;;
  or_raise (apply_xslt transform doc) XSLTApplyError.

(** [print(obj, file=f)]: [str(obj)], then the text and a line feed are
    written to [f]. *)
Definition print_file (obj : result_tree) (f : file) : M unit :=
  s <- or_raise (str obj) SerialisationError ;;
  file_write f s ;;;
  file_write f nl.

Definition xsl_transform (inDoc xslFile outDoc : string) : M unit :=
  doc <- ET_parse inDoc ;;
  xslt <- ET_parse xslFile ;;
  transform <- ET_XSLT xslt ;;
  transformed_doc <- call_transform transform doc ;;
  with_open_w outDoc (fun f => print_file transformed_doc f).

Definition stylesheet_path : string :=
  PROJECT_DOC_DIR +:+ "/thirdparty/doxygen/dedup_index.xsl".

Definition doxy_deduplicate_index (filename : string) : M unit :=
  xsl_transform filename stylesheet_path filename ;;;
  print "Removed duplicated <compound> elements in index.xml".

(** The module's last statement. *)
Definition script (argv : list string) : M unit :=
  filename <- subscript argv 1 ;;
  doxy_deduplicate_index filename.

(** The interpreter ends with status 1 on an exception nobody caught and
    with status 0 otherwise. *)
Definition exit_status {A} (v : exn + A) : nat :=
  match v with
  | inl _ => 1
  | inr _ => 0
  end.

Definition run_process (argv : list string) (w : world) : outcome unit * nat :=
  let o := script argv w in (o, exit_status (value o)).

(** ** What a run computes, read off the files alone *)

(** The tree [ET.parse(path)] returns on the files [fs], if it returns. *)
Definition load (fs : gmap string string) (path : string) : option tree :=
  fs !! path ≫= parse_text.

(** The compiled stylesheet of the configured path, if it can be had. *)
Definition load_stylesheet (fs : gmap string string) : option xslt_program :=
  load fs stylesheet_path ≫= XSLT.

(** The string form of the transform result for the document at
    [filename]. *)
Definition transformed_text (fs : gmap string string) (filename : string)
    : option string :=
  doc ← load fs filename;
  transform ← load_stylesheet fs;
  apply_xslt transform doc ≫= str.

(** The calls of a run that goes through, [s] being the string form of the
    transform result. *)
Definition complete_run (filename s : string) : list call :=
  [ Parse filename; Parse stylesheet_path; Compile; Apply;
    Open filename; Write filename s; Write filename nl; Close filename;
    Stdout "Removed duplicated <compound> elements in index.xml";
    Stdout nl ].

(** The stylesheet maps its own output to itself: when [s] is the string form
    of a result of [transform], the file a run leaves ([s] and a line feed)
    parses to [doc'], and [transform] has a result on [doc'], then that
    result has the string form [s] again. *)
Definition idempotent (transform : xslt_program) : Prop :=
  ∀ doc r s doc' r',
    apply_xslt transform doc = Some r → str r = Some s →
    parse_text (s +:+ nl) = Some doc' →
    apply_xslt transform doc' = Some r' → str r' = Some s.

(** The ways a run of [doxy_deduplicate_index filename] from [w] can end, one
    per call that can raise and one for the run that goes through: the calls
    made, the world left behind, and the exception or the return. *)
Inductive ends (filename : string) (w : world) : outcome unit → Prop :=
| ends_input_missing :
    files w !! filename = None →
    ends filename w
      (Outcome [Parse filename] w (inl (OSError Reading filename)))
| ends_input_malformed text :
    files w !! filename = Some text → parse_text text = None →
    ends filename w
      (Outcome [Parse filename] w (inl (XMLSyntaxError filename)))
| ends_stylesheet_missing doc :
    load (files w) filename = Some doc →
    files w !! stylesheet_path = None →
    ends filename w
      (Outcome [Parse filename; Parse stylesheet_path] w
         (inl (OSError Reading stylesheet_path)))
| ends_stylesheet_malformed doc text :
    load (files w) filename = Some doc →
    files w !! stylesheet_path = Some text → parse_text text = None →
    ends filename w
      (Outcome [Parse filename; Parse stylesheet_path] w
         (inl (XMLSyntaxError stylesheet_path)))
| ends_stylesheet_not_xslt doc xslt :
    load (files w) filename = Some doc →
    load (files w) stylesheet_path = Some xslt → XSLT xslt = None →
    ends filename w
      (Outcome [Parse filename; Parse stylesheet_path; Compile] w
         (inl XSLTParseError))
| ends_transform_raised doc transform :
    load (files w) filename = Some doc →
    load_stylesheet (files w) = Some transform →
    apply_xslt transform doc = None →
    ends filename w
      (Outcome [Parse filename; Parse stylesheet_path; Compile; Apply] w
         (inl XSLTApplyError))
| ends_open_refused doc transform r :
    load (files w) filename = Some doc →
    load_stylesheet (files w) = Some transform →
    apply_xslt transform doc = Some r →
    filename ∈ unwritable w →
    ends filename w
      (Outcome
         [Parse filename; Parse stylesheet_path; Compile; Apply; Open filename]
         w (inl (OSError Writing filename)))
| ends_str_raised doc transform r :
    load (files w) filename = Some doc →
    load_stylesheet (files w) = Some transform →
    apply_xslt transform doc = Some r →
    filename ∉ unwritable w →
    str r = None →
    ends filename w
      (Outcome
         [Parse filename; Parse stylesheet_path; Compile; Apply; Open filename;
          Close filename]
         (set_files <[filename := EmptyString]> w)
         (inl SerialisationError))
| ends_write_raised doc transform r s :
    load (files w) filename = Some doc →
    load_stylesheet (files w) = Some transform →
    apply_xslt transform doc = Some r →
    filename ∉ unwritable w →
    str r = Some s →
    encodable (unencodable w) s = false →
    ends filename w
      (Outcome
         [Parse filename; Parse stylesheet_path; Compile; Apply; Open filename;
          Write filename s; Close filename]
         (set_files <[filename := EmptyString]> w)
         (inl UnicodeEncodeError))
| ends_line_feed_raised s :
    transformed_text (files w) filename = Some s →
    filename ∉ unwritable w →
    encodable (unencodable w) s = true →
    encodable (unencodable w) nl = false →
    fits (room w) filename s = true →
    ends filename w
      (Outcome
         [Parse filename; Parse stylesheet_path; Compile; Apply; Open filename;
          Write filename s; Write filename nl; Close filename]
         (set_files <[filename := s]> w)
         (inl UnicodeEncodeError))
| ends_line_feed_and_close_raised s :
    transformed_text (files w) filename = Some s →
    filename ∉ unwritable w →
    encodable (unencodable w) s = true →
    encodable (unencodable w) nl = false →
    fits (room w) filename s = false →
    ends filename w
      (Outcome
         [Parse filename; Parse stylesheet_path; Compile; Apply; Open filename;
          Write filename s; Write filename nl; Close filename]
         (set_files <[filename := flushed (room w) filename s]> w)
         (inl (OSError Closing filename)))
| ends_close_raised s :
    transformed_text (files w) filename = Some s →
    filename ∉ unwritable w →
    encodable (unencodable w) s = true →
    encodable (unencodable w) nl = true →
    fits (room w) filename (s +:+ nl) = false →
    ends filename w
      (Outcome
         [Parse filename; Parse stylesheet_path; Compile; Apply; Open filename;
          Write filename s; Write filename nl; Close filename]
         (set_files <[filename := flushed (room w) filename (s +:+ nl)]> w)
         (inl (OSError Closing filename)))
| ends_done s :
    transformed_text (files w) filename = Some s →
    filename ∉ unwritable w →
    encodable (unencodable w) s = true →
    encodable (unencodable w) nl = true →
    fits (room w) filename (s +:+ nl) = true →
    ends filename w
      (Outcome (complete_run filename s)
         {| files := <[filename := s +:+ nl]> (files w);
            unwritable := unwritable w;
            unencodable := unencodable w;
            room := room w;
            stdout :=
              (stdout w
                 +:+ "Removed duplicated <compound> elements in index.xml")
                +:+ nl |}
         (inr tt)).

(** Calls that change a file: opening for writing creates or truncates. *)
Definition changes_a_file (c : call) : bool :=
  match c with
  | Open _ | Write _ _ => true
  | _ => false
  end.

(** The path a call opens for writing, writes to or closes. *)
Definition target (c : call) : option string :=
  match c with
  | Open p | Write p _ | Close p => Some p
  | _ => None
  end.

Definition is_stdout (c : call) : bool :=
  match c with
  | Stdout _ => true
  | _ => false
  end.

(** The text a list of calls sends to standard output. *)
Fixpoint printed (cs : list call) : string :=
  match cs with
  | [] => EmptyString
  | Stdout data :: cs' => data +:+ printed cs'
  | _ :: cs' => printed cs'
  end.

(** How often calls of one kind were made. *)
Definition times (kind : call → bool) (cs : list call) : nat :=
  length (List.filter kind cs).

Definition is_parse (c : call) : bool :=
  match c with
  | Parse _ => true
  | _ => false
  end.

Definition is_compile (c : call) : bool :=
  match c with
  | Compile => true
  | _ => false
  end.

Definition is_apply (c : call) : bool :=
  match c with
  | Apply => true
  | _ => false
  end.

Definition is_open (c : call) : bool :=
  match c with
  | Open _ => true
  | _ => false
  end.

End Script.

(** ** A small implementation of the interface

    Documents are sequences of compounds with one of three reference ids,
    one letter each; line feeds between them do not count.  A stylesheet is
    such a document too: [A] alone removes duplicated compounds, a leading
    [B] gives a stylesheet that terminates every transformation, a leading
    [C] one that emits the compounds after it, whatever the input.  An empty
    result has no string form. *)
Module Toy.

Inductive refid := A | B | C.

#[global] Instance refid_eq_dec : EqDecision refid.
Proof. solve_decision. Defined.

Definition letter (i : refid) : Ascii.ascii :=
  match i with
  | A => Ascii.ascii_of_nat 65
  | B => Ascii.ascii_of_nat 66
  | C => Ascii.ascii_of_nat 67
  end.

Definition refid_of (c : Ascii.ascii) : option refid :=
  if Ascii.eqb c (letter A) then Some A
  else if Ascii.eqb c (letter B) then Some B
  else if Ascii.eqb c (letter C) then Some C
  else None.

Fixpoint parse_compounds (s : string) : option (list refid) :=
  match s with
  | EmptyString => Some []
  | String c rest =>
      if Ascii.eqb c (Ascii.ascii_of_nat 10) then parse_compounds rest
      else
        match refid_of c, parse_compounds rest with
        | Some i, Some t => Some (i :: t)
        | _, _ => None
        end
  end.

Inductive program := Dedup | Terminate | Emit (out : list refid).

Definition compile (t : list refid) : option program :=
  match t with
  | [A] => Some Dedup
  | B :: _ => Some Terminate
  | C :: out => Some (Emit out)
  | _ => None
  end.

Definition run (p : program) (t : list refid) : option (list refid) :=
  match p with
  | Dedup => Some (remove_dups t)
  | Terminate => None
  | Emit out => Some out
  end.

Fixpoint serialise (t : list refid) : string :=
  match t with
  | [] => EmptyString
  | i :: t' => String (letter i) (serialise t')
  end.

Definition to_str (t : list refid) : option string :=
  match t with
  | [] => None
  | _ => Some (serialise t)
  end.

#[global] Instance etree : Etree := {|
  tree := list refid;
  xslt_program := program;
  result_tree := list refid;
  parse_text := parse_compounds;
  XSLT := compile;
  apply_xslt := run;
  str := to_str
|}.

(** The documentation directory of the examples, and its stylesheet. *)
Definition doc_dir : string := "/doc".

Definition xsl : string := "/doc/thirdparty/doxygen/dedup_index.xsl".

(** A build tree: index.xml lists compound A twice, then B; other.xml is
    another document. *)
Definition build : world :=
  {| files := {[ "index.xml" := "AAB"; "other.xml" := "BCB"; xsl := "A" ]};
     unwritable := {[ "/proc/version" ]};
     unencodable := ∅;
     room := ∅;
     stdout := EmptyString |}.

(** The same tree before the stylesheet was installed. *)
Definition no_stylesheet : world :=
  {| files := {[ "index.xml" := "AAB" ]};
     unwritable := ∅;
     unencodable := ∅;
     room := ∅;
     stdout := EmptyString |}.

(** A tree whose stylesheet emits [C; A] whatever the input: read as a
    stylesheet itself, [C; A] emits [A]. *)
Definition self : world :=
  {| files := {[ xsl := "CCA" ]};
     unwritable := ∅;
     unencodable := ∅;
     room := ∅;
     stdout := EmptyString |}.

(** A tree whose stylesheet emits nothing, and one that terminates. *)
Definition emits_nothing : world :=
  {| files := {[ "index.xml" := "AAB"; xsl := "C" ]};
     unwritable := ∅;
     unencodable := ∅;
     room := ∅;
     stdout := EmptyString |}.

Definition terminates : world :=
  {| files := {[ "index.xml" := "AAB"; xsl := "B" ]};
     unwritable := ∅;
     unencodable := ∅;
     room := ∅;
     stdout := EmptyString |}.

(** The build tree on a device with room for one character per file, and
    the build tree under an encoding without the letter B. *)
Definition nearly_full : world :=
  {| files := {[ "index.xml" := "AAB"; "other.xml" := "BCB"; xsl := "A" ]};
     unwritable := ∅;
     unencodable := ∅;
     room := {[ "index.xml" := 1; "out.xml" := 1 ]};
     stdout := EmptyString |}.

Definition no_letter_B : world :=
  {| files := {[ "index.xml" := "AAB"; "other.xml" := "BCB"; xsl := "A" ]};
     unwritable := ∅;
     unencodable := {[ letter B ]};
     room := ∅;
     stdout := EmptyString |}.

(** The toy script, configured for [doc_dir]. *)
Definition dedup (filename : string) : M unit :=
  doxy_deduplicate_index doc_dir filename.

End Toy.

(** ** A run of [xsl_transform], in closed form *)

Section ClosedForm.
Context `{Etree}.

(** The exception of [ET.parse(path)] on the files [fs]: the file is not
    there, or its text is not well-formed. *)
Definition parse_error (fs : gmap string string) (path : string) : exn :=
  match fs !! path with
  | None => OSError Reading path
  | Some _ => XMLSyntaxError path
  end.

(** The string form of the result of the stylesheet at [xslFile] on the
    document at [inDoc]. *)
Definition result_text (fs : gmap string string) (inDoc xslFile : string)
    : option string :=
  doc ← load fs inDoc;
  transform ← load fs xslFile ≫= XSLT;
  apply_xslt transform doc ≫= str.

(** What [xsl_transform inDoc xslFile outDoc] comes to, call by call;
    [xsl_transform_closed_form] proves it of the function. *)
Definition transform_outcome (inDoc xslFile outDoc : string) (w : world)
    : outcome unit :=
  match load (files w) inDoc with
  | None => Outcome [Parse inDoc] w (inl (parse_error (files w) inDoc))
  | Some doc =>
  match load (files w) xslFile with
  | None =>
      Outcome [Parse inDoc; Parse xslFile] w
        (inl (parse_error (files w) xslFile))
  | Some xslt =>
  match XSLT xslt with
  | None =>
      Outcome [Parse inDoc; Parse xslFile; Compile] w (inl XSLTParseError)
  | Some transform =>
  match apply_xslt transform doc with
  | None =>
      Outcome [Parse inDoc; Parse xslFile; Compile; Apply] w
        (inl XSLTApplyError)
  | Some r =>
      if decide (outDoc ∈ unwritable w) then
        Outcome [Parse inDoc; Parse xslFile; Compile; Apply; Open outDoc] w
          (inl (OSError Writing outDoc))
      else
        match str r with
        | None =>
            Outcome
              [Parse inDoc; Parse xslFile; Compile; Apply; Open outDoc;
               Close outDoc]
              (set_files <[outDoc := EmptyString]> w)
              (inl SerialisationError)
        | Some s =>
            if encodable (unencodable w) s then
              if encodable (unencodable w) nl then
                if fits (room w) outDoc (s +:+ nl) then
                  Outcome
                    [Parse inDoc; Parse xslFile; Compile; Apply; Open outDoc;
                     Write outDoc s; Write outDoc nl; Close outDoc]
                    (set_files <[outDoc := s +:+ nl]> w)
                    (inr tt)
                else
                  Outcome
                    [Parse inDoc; Parse xslFile; Compile; Apply; Open outDoc;
                     Write outDoc s; Write outDoc nl; Close outDoc]
                    (set_files
                       <[outDoc := flushed (room w) outDoc (s +:+ nl)]> w)
                    (inl (OSError Closing outDoc))
              else
                if fits (room w) outDoc s then
                  Outcome
                    [Parse inDoc; Parse xslFile; Compile; Apply; Open outDoc;
                     Write outDoc s; Write outDoc nl; Close outDoc]
                    (set_files <[outDoc := s]> w)
                    (inl UnicodeEncodeError)
                else
                  Outcome
                    [Parse inDoc; Parse xslFile; Compile; Apply; Open outDoc;
                     Write outDoc s; Write outDoc nl; Close outDoc]
                    (set_files <[outDoc := flushed (room w) outDoc s]> w)
                    (inl (OSError Closing outDoc))
            else
              Outcome
                [Parse inDoc; Parse xslFile; Compile; Apply; Open outDoc;
                 Write outDoc s; Close outDoc]
                (set_files <[outDoc := EmptyString]> w)
                (inl UnicodeEncodeError)
        end
  end end end end.

Definition is_write (c : call) : bool :=
  match c with
  | Write _ _ => true
  | _ => false
  end.

Definition is_close (c : call) : bool :=
  match c with
  | Close _ => true
  | _ => false
  end.

End ClosedForm.

(** * Proofs *)

Section Proofs.
Context `{Etree}.
Variable dir : string.

(** One step of a run: the monad's plumbing, and nothing of the files. *)
Ltac step :=
  cbn [value calls final app name or_raise ret raise
       files unwritable unencodable room stdout set_files set_stdout].

Lemma append_empty_l (s : string) : EmptyString +:+ s = s.
Proof. reflexivity. Qed.

(** There is always room for nothing. *)
Lemma fits_empty (left : gmap string nat) (path : string) :
  fits left path EmptyString = true.
Proof.
  unfold fits. destruct (left !! path); [| done].
  apply bool_decide_eq_true. cbn. lia.
Qed.

(** What an opened file holds, after the writes so far. *)
Ltac held :=
  rewrite ?lookup_insert_eq; cbn [default from_option id];
  rewrite ?append_empty_l, ?insert_insert_eq.

(** Every run ends in one of the ways of [ends]. *)
Lemma doxy_deduplicate_index_ends (filename : string) (w : world) :
  ends dir filename w (doxy_deduplicate_index dir filename w).
Proof.
  unfold doxy_deduplicate_index, xsl_transform, ET_parse, ET_XSLT,
    call_transform, with_open_w, open_w, print_file, file_write, file_close,
    print.
  unfold bind, finally, log, get_world, modify; step.
  destruct (files w !! filename) as [text|] eqn:Hin; step;
    [| by constructor].
  destruct (parse_text text) as [doc|] eqn:Hdoc; step;
    [| by econstructor].
  assert (Hload : load (files w) filename = Some doc)
    by (unfold load; rewrite Hin; exact Hdoc).
  destruct (files w !! stylesheet_path dir) as [xtext|] eqn:Hx; step;
    [| by econstructor].
  destruct (parse_text xtext) as [xslt|] eqn:Hxslt; step;
    [| by econstructor].
  assert (Hxload : load (files w) (stylesheet_path dir) = Some xslt)
    by (unfold load; rewrite Hx; exact Hxslt).
  destruct (XSLT xslt) as [transform|] eqn:Hc; step;
    [| by econstructor].
  assert (Hsheet : load_stylesheet dir (files w) = Some transform)
    by (unfold load_stylesheet; rewrite Hxload; exact Hc).
  destruct (apply_xslt transform doc) as [r|] eqn:Hr; step;
    [| by econstructor].
  destruct (decide (filename ∈ unwritable w)) as [Hno|Hyes]; step;
    [by econstructor |].
  destruct (str r) as [s|] eqn:Hs; step; held;
    [| rewrite fits_empty; step; by econstructor].
  assert (Htext : transformed_text dir (files w) filename = Some s).
  { unfold transformed_text. rewrite Hload, Hsheet. cbn. rewrite Hr. exact Hs. }
  destruct (encodable (unencodable w) s) eqn:Hcode; step; held;
    [| rewrite fits_empty; step; by econstructor].
  destruct (encodable (unencodable w) nl) eqn:Hnl; step; held.
  - destruct (fits (room w) filename (s +:+ nl)) eqn:Hroom; step; held.
    + match goal with
      | |- ends _ _ _ (Outcome _ ?w' _) =>
          replace w' with
            {| files := <[filename := s +:+ nl]> (files w);
               unwritable := unwritable w;
               unencodable := unencodable w;
               room := room w;
               stdout :=
                 (stdout w
                    +:+ "Removed duplicated <compound> elements in index.xml")
                   +:+ nl |}
      end; [by constructor |].
      unfold set_stdout, set_files; step. f_equal. by held.
    + replace (set_files _ _)
        with (set_files
                <[filename := flushed (room w) filename (s +:+ nl)]> w);
        [by econstructor |].
      unfold set_files; step. f_equal. by held.
  - destruct (fits (room w) filename s) eqn:Hroom; step; held.
    + replace (set_files _ _) with (set_files <[filename := s]> w);
        [by econstructor |].
      unfold set_files; step. f_equal. by held.
    + replace (set_files _ _)
        with (set_files <[filename := flushed (room w) filename s]> w);
        [by econstructor |].
      unfold set_files; step. f_equal. by held.
Qed.


Lemma transformed_text_inv (fs : gmap string string) (filename s : string) :
  transformed_text dir fs filename = Some s →
  ∃ doc transform r,
    load fs filename = Some doc ∧
    load_stylesheet dir fs = Some transform ∧
    apply_xslt transform doc = Some r ∧ str r = Some s.
Proof.
  unfold transformed_text. intros Hs.
  destruct (load fs filename) as [doc|]; [| done].
  destruct (load_stylesheet dir fs) as [transform|]; [| done].
  cbn in Hs. destruct (apply_xslt transform doc) as [r|] eqn:Hr; [| done].
  by exists doc, transform, r.
Qed.

(** Case analysis on how the run of [filename] from [w] ends; where it went
    through, what [transformed_text] rests on is put among the hypotheses. *)
Ltac by_ending filename w :=
  generalize (doxy_deduplicate_index_ends filename w);
  generalize (doxy_deduplicate_index dir filename w);
  intros ? [];
  try match goal with
  | Hs : transformed_text _ _ _ = Some _ |- _ =>
      pose proof (transformed_text_inv _ _ _ Hs) as (? & ? & ? & ? & ? & ? & ?)
  end.

Lemma script_run (argv : list string) (w : world) :
  script dir argv w =
    match argv !! 1 with
    | Some filename => doxy_deduplicate_index dir filename w
    | None => Outcome [] w (inl IndexError)
    end.
Proof.
  unfold script, subscript, bind. destruct (argv !! 1) as [filename|]; cbn;
    [| done].
  by destruct (doxy_deduplicate_index dir filename w).
Qed.

(** C1. If the stylesheet at the configured path is missing, is not
    well-formed XML or is not XSLT, [doxy_deduplicate_index] raises, and none
    of the calls it made before opens or writes a file: the world, the input
    file in it, is as it was. *)
Theorem stylesheet_error_leaves_input_file (filename : string) (w : world) :
  load_stylesheet dir (files w) = None →
  (∃ e, value (doxy_deduplicate_index dir filename w) = inl e) ∧
  List.filter changes_a_file (calls (doxy_deduplicate_index dir filename w))
    = [] ∧
  final (doxy_deduplicate_index dir filename w) = w.
Proof.
  intros Hsheet. by_ending filename w; step; try congruence; by eauto.
Qed.

(** C5. If the input file does not exist or is not well-formed XML, the run
    raises the exception of [ET.parse(filename)] ([OSError] for the file that
    is not there, [XMLSyntaxError] for the text that does not parse); that
    call is the only one made, so nothing was opened or written, and the
    world is as it was: no file created, truncated or modified. *)
Theorem input_error_leaves_filesystem (filename : string) (w : world) :
  load (files w) filename = None →
  value (doxy_deduplicate_index dir filename w) =
    inl (match files w !! filename with
         | None => OSError Reading filename
         | Some _ => XMLSyntaxError filename
         end) ∧
  calls (doxy_deduplicate_index dir filename w) = [Parse filename] ∧
  final (doxy_deduplicate_index dir filename w) = w.
Proof.
  intros Hload. by_ending filename w; step; try congruence;
    by match goal with Hin : files w !! filename = _ |- _ => rewrite Hin end.
Qed.

(** C2. Whatever the run does, its first call parses [filename], every call
    that opens, writes or closes a file names [filename], and every other
    path holds afterwards what it held before. *)
Theorem writes_only_the_path_it_read (filename : string) (w : world) :
  head (calls (doxy_deduplicate_index dir filename w)) = Some (Parse filename) ∧
  Forall (eq filename)
    (omap target (calls (doxy_deduplicate_index dir filename w))) ∧
  (∀ path, path ≠ filename →
     files (final (doxy_deduplicate_index dir filename w)) !! path
       = files w !! path).
Proof.
  by_ending filename w; step; cbn [head omap target];
    (split; [done |]); (split; [by repeat constructor |]);
    intros path Hpath; try done; by rewrite lookup_insert_ne.
Qed.

(** C3, as amended. When the run goes through, the input file holds the
    string form of the transform result followed by one line feed, the one
    [print] ends its output with: the calls that changed a file are the
    opening of [filename] and the two writes of [print], of the string form
    and of the line feed. *)
Theorem file_holds_str_and_line_feed (filename : string) (w : world) :
  value (doxy_deduplicate_index dir filename w) = inr tt →
  ∃ s,
    transformed_text dir (files w) filename = Some s ∧
    files (final (doxy_deduplicate_index dir filename w)) !! filename
      = Some (s +:+ nl) ∧
    List.filter changes_a_file (calls (doxy_deduplicate_index dir filename w))
      = [Open filename; Write filename s; Write filename nl].
Proof.
  by_ending filename w; step; try done.
  intros _. eexists. split; [eassumption |].
  split; [by rewrite lookup_insert_eq | done].
Qed.

(** C4. A run that goes through made these calls, in this order and no
    others: parse the document at [filename]; parse the stylesheet at the
    configured path and compile it; apply the transform; open [filename] for
    writing, write the string form of the result and the line feed, close;
    print the confirmation and its line feed. *)
Theorem successful_run_in_order (filename : string) (w : world) :
  value (doxy_deduplicate_index dir filename w) = inr tt →
  ∃ s,
    transformed_text dir (files w) filename = Some s ∧
    calls (doxy_deduplicate_index dir filename w) =
      [ Parse filename;
        Parse (stylesheet_path dir); Compile;
        Apply;
        Open filename; Write filename s; Write filename nl; Close filename;
        Stdout "Removed duplicated <compound> elements in index.xml";
        Stdout nl ].
Proof.
  by_ending filename w; step; try done.
  intros _. eexists. by split; [eassumption |].
Qed.

Lemma append_assoc (a b c : string) : (a +:+ b) +:+ c = a +:+ (b +:+ c).
Proof.
  induction a as [|x a IH]; [done |].
  change (String x ((a +:+ b) +:+ c) = String x (a +:+ (b +:+ c))).
  by f_equal.
Qed.

(** A run returns exactly when the text can be computed from the files, the
    system lets [filename] be opened for writing, the text and the line feed
    can be encoded, and the device has room for them. *)
Lemma returns_iff (filename : string) (w : world) :
  value (doxy_deduplicate_index dir filename w) = inr tt ↔
  ∃ s,
    transformed_text dir (files w) filename = Some s ∧
    (filename ∉ unwritable w) ∧
    encodable (unencodable w) s = true ∧
    encodable (unencodable w) nl = true ∧
    fits (room w) filename (s +:+ nl) = true.
Proof.
  split.
  - by_ending filename w; step; try done. by eauto 10.
  - intros (s & Hs & Hw & Hcode & Hnl & Hroom).
    pose proof (transformed_text_inv _ _ _ Hs)
      as (doc & X & r & Hd & HX & Hr & Hstr).
    by_ending filename w; step; try done;
      unfold transformed_text, load_stylesheet, load in *;
      simplify_option_eq; congruence.
Qed.

Lemma exit_status_0 (v : exn + unit) : exit_status v = 0 ↔ v = inr tt.
Proof. destruct v as [e|[]]; cbn; split; done. Qed.

Lemma exit_status_raised (v : exn + unit) (e : exn) :
  v = inl e → exit_status v = 1.
Proof. by intros ->. Qed.

Lemma exit_status_not_0 (v : exn + unit) : exit_status v ≠ 0 → exit_status v = 1.
Proof. by destruct v. Qed.

(** No call is made more often than the script names it: [ET.parse] twice,
    [ET.XSLT], the transform and [open] once. *)
Lemma no_call_repeated (filename : string) (w : world) :
  times is_parse (calls (doxy_deduplicate_index dir filename w)) ≤ 2 ∧
  times is_compile (calls (doxy_deduplicate_index dir filename w)) ≤ 1 ∧
  times is_apply (calls (doxy_deduplicate_index dir filename w)) ≤ 1 ∧
  times is_open (calls (doxy_deduplicate_index dir filename w)) ≤ 1.
Proof. by_ending filename w; step; cbn; lia. Qed.

(** C6. No exception is caught on the way out: whatever exception the script
    ends with, the process ends with status 1.  Status 0 is the status only
    of runs that have an argument, could compute the text from the files,
    could open the file, encode the text and the line feed, and flush them;
    and such a run made every call of the complete sequence and left the
    text in the file.  An input that does not parse, a stylesheet that
    cannot be had, a transform or a [str] that raises, a refused [open], a
    write that cannot encode, and a close that cannot flush each give
    status 1.  Nothing is tried again: [ET.parse] is called at most twice,
    [ET.XSLT], the transform and [open] at most once. *)
Theorem errors_end_the_process (argv : list string) (w : world) :
  (∀ e, value (script dir argv w) = inl e →
        (run_process dir argv w).2 = 1) ∧
  ((run_process dir argv w).2 = 0 →
     ∃ filename s,
       argv !! 1 = Some filename ∧
       transformed_text dir (files w) filename = Some s ∧
       (filename ∉ unwritable w) ∧
       encodable (unencodable w) s = true ∧
       encodable (unencodable w) nl = true ∧
       fits (room w) filename (s +:+ nl) = true ∧
       calls (script dir argv w) = complete_run dir filename s ∧
       files (final (script dir argv w)) !! filename = Some (s +:+ nl)) ∧
  (∀ filename,
     argv !! 1 = Some filename →
     load (files w) filename = None ∨
     load_stylesheet dir (files w) = None ∨
     (∃ doc transform,
        load (files w) filename = Some doc ∧
        load_stylesheet dir (files w) = Some transform ∧
        (apply_xslt transform doc = None ∨
         ∃ r, apply_xslt transform doc = Some r ∧ str r = None)) ∨
     filename ∈ unwritable w ∨
     (∃ s,
        transformed_text dir (files w) filename = Some s ∧
        (encodable (unencodable w) s = false ∨
         encodable (unencodable w) nl = false ∨
         fits (room w) filename (s +:+ nl) = false)) →
     (run_process dir argv w).2 = 1) ∧
  times is_parse (calls (script dir argv w)) ≤ 2 ∧
  times is_compile (calls (script dir argv w)) ≤ 1 ∧
  times is_apply (calls (script dir argv w)) ≤ 1 ∧
  times is_open (calls (script dir argv w)) ≤ 1.
Proof.
  assert (Hzero : (run_process dir argv w).2 = 0 ↔
     ∃ filename s,
       argv !! 1 = Some filename ∧
       transformed_text dir (files w) filename = Some s ∧
       (filename ∉ unwritable w) ∧
       encodable (unencodable w) s = true ∧
       encodable (unencodable w) nl = true ∧
       fits (room w) filename (s +:+ nl) = true).
  { unfold run_process. cbn [snd]. rewrite exit_status_0, script_run.
    destruct (argv !! 1) as [filename|].
    - rewrite returns_iff. split; [by intros (s & ?); eauto 10 |].
      by intros (? & s & [= <-] & ?); eauto 10.
    - split; [done | by intros (? & ? & ? & ?)]. }
  split; [| split; [| split]].
  - intros e He. unfold run_process. cbn [snd].
    by apply exit_status_raised with e.
  - intros (filename & s & Hargv & Hs & Hw & Hcode & Hnl & Hroom)%Hzero.
    exists filename, s. do 6 (split; [done |]).
    rewrite script_run, Hargv.
    assert (Hret : value (doxy_deduplicate_index dir filename w) = inr tt)
      by (apply returns_iff; eauto 10).
    revert Hret. by_ending filename w; step; try done.
    intros _.
    match goal with
    | Hs' : transformed_text dir (files w) filename = Some ?s' |- _ =>
        assert (s' = s) as -> by congruence
    end.
    split; [done |]. by rewrite lookup_insert_eq.
  - intros filename Hargv Hfail.
    apply exit_status_not_0. fold ((run_process dir argv w).2).
    intros (filename' & s & Hargv' & Hs & Hw & Hcode & Hnl & Hroom)%Hzero.
    rewrite Hargv in Hargv'. injection Hargv' as <-.
    pose proof (transformed_text_inv _ _ _ Hs)
      as (doc & X & r & Hd & HX & Hr & Hstr).
    destruct Hfail
      as [? | [? | [(? & ? & ? & ? & [? | (? & ? & ?)]) | [? |
           (s' & Hs' & Hbad)]]]];
      try congruence.
    assert (s' = s) as -> by congruence.
    destruct Hbad as [? | [? | ?]]; congruence.
  - rewrite script_run. destruct (argv !! 1) as [filename|].
    + apply no_call_repeated.
    + cbn. lia.
Qed.

Lemma load_stylesheet_insert (fs : gmap string string) (path text : string) :
  path ≠ stylesheet_path dir →
  load_stylesheet dir (<[path := text]> fs) = load_stylesheet dir fs.
Proof.
  intros Hpath. unfold load_stylesheet, load. by rewrite lookup_insert_ne.
Qed.

(** What a run that returned has done. *)
Lemma returns_inv (filename : string) (w : world) :
  value (doxy_deduplicate_index dir filename w) = inr tt →
  ∃ s doc transform r,
    load (files w) filename = Some doc ∧
    load_stylesheet dir (files w) = Some transform ∧
    apply_xslt transform doc = Some r ∧ str r = Some s ∧
    encodable (unencodable w) s = true ∧
    encodable (unencodable w) nl = true ∧
    fits (room w) filename (s +:+ nl) = true ∧
    calls (doxy_deduplicate_index dir filename w)
      = complete_run dir filename s ∧
    files (final (doxy_deduplicate_index dir filename w))
      = <[filename := s +:+ nl]> (files w) ∧
    unencodable (final (doxy_deduplicate_index dir filename w))
      = unencodable w ∧
    room (final (doxy_deduplicate_index dir filename w)) = room w.
Proof.
  by_ending filename w; step; try done. intros _.
  do 4 eexists. by repeat (split; [eassumption |]).
Qed.

(** C7, as amended. Let [filename] be a file other than the stylesheet, let
    the transform of the stylesheet be idempotent in the sense of
    [idempotent], and let a first run go through.  Then a second run, from
    the world the first one left, leaves every file as the first run left
    it, and every call of it that changes a file the first run made too. *)
Theorem second_run_leaves_same_text (filename : string) (w : world) :
  filename ≠ stylesheet_path dir →
  (∀ transform,
     load_stylesheet dir (files w) = Some transform → idempotent transform) →
  value (doxy_deduplicate_index dir filename w) = inr tt →
  files (final (doxy_deduplicate_index dir filename
                  (final (doxy_deduplicate_index dir filename w))))
    = files (final (doxy_deduplicate_index dir filename w)) ∧
  List.filter changes_a_file
    (calls (doxy_deduplicate_index dir filename
              (final (doxy_deduplicate_index dir filename w))))
    ⊆ List.filter changes_a_file
        (calls (doxy_deduplicate_index dir filename w)).
Proof.
  intros Hpath Hidem
    (s & doc & X & r & Hd & HX & Hr & Hs & Hcode & Hnl & Hroom
       & Hcalls & Hfiles & Hmissing & Hleft)%returns_inv.
  specialize (Hidem X HX). rewrite Hcalls.
  generalize dependent (final (doxy_deduplicate_index dir filename w)).
  intros w1 Hfiles Hmissing Hleft.
  assert (Hin : files w1 !! filename = Some (s +:+ nl))
    by (rewrite Hfiles; apply lookup_insert_eq).
  assert (Hsheet : load_stylesheet dir (files w1) = Some X)
    by (by rewrite Hfiles, load_stylesheet_insert).
  assert (Hagain : ∀ doc' X' r',
    load (files w1) filename = Some doc' →
    load_stylesheet dir (files w1) = Some X' →
    apply_xslt X' doc' = Some r' → str r' = Some s).
  { intros doc' X' r' Hd' HX' Hr'.
    unfold load in Hd'. rewrite Hin in Hd'. cbn in Hd'.
    rewrite Hsheet in HX'. injection HX' as <-.
    exact (Hidem doc r s doc' r' Hr Hs Hd' Hr'). }
  by_ending filename w1; step;
    try (split; [done |]; cbn;
         first [apply list_subseteq_nil
               | apply list_subseteq_skip, list_subseteq_nil]);
    match goal with
    | Hd' : load (files w1) filename = Some _,
      HX' : load_stylesheet dir (files w1) = Some _,
      Hr' : apply_xslt _ _ = Some _ |- _ =>
        pose proof (Hagain _ _ _ Hd' HX' Hr') as Hsame
    end;
    rewrite ?Hmissing, ?Hleft in *;
    (* in the second run no call after [open] raises: the text is the one
       the first run wrote *)
    try (exfalso; congruence).
  match goal with
  | Hs' : transformed_text dir (files w1) filename = Some ?s' |- _ =>
      assert (s' = s) as -> by congruence
  end.
  split; [| done].
  by rewrite Hfiles, insert_insert_eq.
Qed.

(** C8. A run that returns has printed one line, the confirmation and its
    line feed, as its last two calls; the call before them closes
    [filename], and before that come the opening of [filename] and the two
    writes, and nothing for standard output.  A run that raises has printed
    nothing. *)
Theorem one_line_after_close (filename : string) (w : world) :
  match value (doxy_deduplicate_index dir filename w) with
  | inr _ =>
      ∃ before,
        calls (doxy_deduplicate_index dir filename w) =
          before ++
          [ Close filename;
            Stdout "Removed duplicated <compound> elements in index.xml";
            Stdout nl ] ∧
        List.filter is_stdout before = [] ∧
        (∃ s, List.filter changes_a_file before =
                [Open filename; Write filename s; Write filename nl]) ∧
        stdout (final (doxy_deduplicate_index dir filename w)) =
          stdout w +:+
          ("Removed duplicated <compound> elements in index.xml" +:+ nl) ∧
        count_nl
          ("Removed duplicated <compound> elements in index.xml" +:+ nl) = 1
  | inl _ =>
      stdout (final (doxy_deduplicate_index dir filename w)) = stdout w ∧
      List.filter is_stdout (calls (doxy_deduplicate_index dir filename w))
        = []
  end.
Proof.
  by_ending filename w; step; try done.
  eexists [Parse filename; Parse (stylesheet_path dir); Compile; Apply;
           Open filename; Write filename _; Write filename nl].
  split; [done |]. split; [done |]. split; [by eexists |].
  split; [apply append_assoc | done].
Qed.

(** What a run that returned has printed. *)
Lemma confirmation_printed (filename : string) (w : world) :
  value (doxy_deduplicate_index dir filename w) = inr tt →
  printed (calls (doxy_deduplicate_index dir filename w)) =
    "Removed duplicated <compound> elements in index.xml" +:+ nl ∧
  stdout (final (doxy_deduplicate_index dir filename w)) =
    stdout w +:+
    ("Removed duplicated <compound> elements in index.xml" +:+ nl).
Proof.
  by_ending filename w; step; try done. intros _.
  split; [done | apply append_assoc].
Qed.

(** C9. Two runs that return, on any two paths in any two worlds, have
    printed the same text, and it is the fixed line that names index.xml:
    neither the path nor the files nor the transform result show in it. *)
Theorem confirmation_is_fixed (filename1 filename2 : string) (w1 w2 : world) :
  value (doxy_deduplicate_index dir filename1 w1) = inr tt →
  value (doxy_deduplicate_index dir filename2 w2) = inr tt →
  printed (calls (doxy_deduplicate_index dir filename1 w1)) =
    "Removed duplicated <compound> elements in index.xml" +:+ nl ∧
  printed (calls (doxy_deduplicate_index dir filename2 w2)) =
    printed (calls (doxy_deduplicate_index dir filename1 w1)).
Proof.
  intros [H1 _]%confirmation_printed [H2 _]%confirmation_printed.
  by rewrite H1, H2.
Qed.

(** C10. Without a positional argument [sys.argv[1]] raises [IndexError]
    before any call is made: the process ends with status 1 and the world as
    it was. *)
Theorem no_argument_fails_first (argv : list string) (w : world) :
  length argv ≤ 1 →
  run_process dir argv w = (Outcome [] w (inl IndexError), 1).
Proof.
  intros Hlen. unfold run_process. rewrite script_run.
  by rewrite (lookup_ge_None_2 argv 1 Hlen).
Qed.

End Proofs.

(** * The toy implementation: runs and facts *)

Module ToyFacts.
Import Toy.

Lemma parse_serialise (t : list refid) :
  parse_compounds (serialise t +:+ nl) = Some t.
Proof.
  induction t as [|i t IH]; [done |].
  change (serialise (i :: t) +:+ nl)
    with (String (letter i) (serialise t +:+ nl)).
  cbn [parse_compounds]. rewrite IH. by destruct i.
Qed.

Lemma to_str_serialise (t : list refid) (s : string) :
  to_str t = Some s → s = serialise t.
Proof. destruct t; [done | by intros [= <-]]. Qed.

Lemma remove_dups_NoDup (t : list refid) : NoDup t → remove_dups t = t.
Proof.
  induction 1 as [|i t Hi _ IH]; [done |].
  cbn [remove_dups]. destruct (decide_rel elem_of i t); [done |].
  by rewrite IH.
Qed.

Lemma remove_dups_twice (t : list refid) :
  remove_dups (remove_dups t) = remove_dups t.
Proof. apply remove_dups_NoDup, NoDup_remove_dups. Qed.

(** Every stylesheet of the toy implementation is idempotent. *)
Lemma every_program_idempotent (p : program) : idempotent (H := etree) p.
Proof.
  intros doc r s doc' r' Hr Hs Hdoc' Hr'. cbn in *.
  pose proof (to_str_serialise _ _ Hs) as ->.
  rewrite parse_serialise in Hdoc'. injection Hdoc' as <-.
  destruct p; cbn in *; [| done |].
  - injection Hr as <-. injection Hr' as <-. by rewrite remove_dups_twice.
  - congruence.
Qed.

End ToyFacts.

(** ** Runs of the toy script *)

(** The build tree: A A B becomes A B, and the line is printed. *)
Example run_build :
  Toy.dedup "index.xml" Toy.build =
    Outcome
      [ Parse "index.xml"; Parse Toy.xsl; Compile; Apply;
        Open "index.xml"; Write "index.xml" "AB"; Write "index.xml" nl;
        Close "index.xml";
        Stdout "Removed duplicated <compound> elements in index.xml";
        Stdout nl ]
      {| files := <["index.xml" := "AB" +:+ nl]> (files Toy.build);
         unwritable := unwritable Toy.build;
         unencodable := unencodable Toy.build;
         room := room Toy.build;
         stdout :=
           "Removed duplicated <compound> elements in index.xml" +:+ nl |}
      (inr tt).
Proof. vm_compute. reflexivity. Qed.

(** A stylesheet that emits nothing: [str] raises when the file is already
    open, and the file is left empty. *)
Example run_emits_nothing :
  Toy.dedup "index.xml" Toy.emits_nothing =
    Outcome
      [ Parse "index.xml"; Parse Toy.xsl; Compile; Apply;
        Open "index.xml"; Close "index.xml" ]
      (set_files <["index.xml" := EmptyString]> Toy.emits_nothing)
      (inl SerialisationError).
Proof. vm_compute. reflexivity. Qed.

Example run_terminates :
  Toy.dedup "index.xml" Toy.terminates =
    Outcome [Parse "index.xml"; Parse Toy.xsl; Compile; Apply]
      Toy.terminates (inl XSLTApplyError).
Proof. vm_compute. reflexivity. Qed.

(** A path the system refuses to open for writing, here with the text of a
    document in it. *)
Example run_refused :
  Toy.dedup "/proc/version"
    (set_files <["/proc/version" := "AB"]> Toy.build) =
    Outcome
      [ Parse "/proc/version"; Parse Toy.xsl; Compile; Apply;
        Open "/proc/version" ]
      (set_files <["/proc/version" := "AB"]> Toy.build)
      (inl (OSError Writing "/proc/version")).
Proof. vm_compute. reflexivity. Qed.

(** A device with room for one character: the close raises and the input
    file is left with the first character of the text. *)
Example run_nearly_full :
  Toy.dedup "index.xml" Toy.nearly_full =
    Outcome
      [ Parse "index.xml"; Parse Toy.xsl; Compile; Apply;
        Open "index.xml"; Write "index.xml" "AB"; Write "index.xml" nl;
        Close "index.xml" ]
      (set_files <["index.xml" := "A"]> Toy.nearly_full)
      (inl (OSError Closing "index.xml")).
Proof. vm_compute. reflexivity. Qed.

(** An encoding without the letter B: the first write raises and the input
    file is left empty. *)
Example run_no_letter_B :
  Toy.dedup "index.xml" Toy.no_letter_B =
    Outcome
      [ Parse "index.xml"; Parse Toy.xsl; Compile; Apply;
        Open "index.xml"; Write "index.xml" "AB"; Close "index.xml" ]
      (set_files <["index.xml" := EmptyString]> Toy.no_letter_B)
      (inl UnicodeEncodeError).
Proof. vm_compute. reflexivity. Qed.

Example process_build :
  (run_process Toy.doc_dir ["dedup_index.py"; "index.xml"] Toy.build).2 = 0.
Proof. vm_compute. reflexivity. Qed.

Example process_missing_input :
  (run_process Toy.doc_dir ["dedup_index.py"; "nope.xml"] Toy.build).2 = 1.
Proof. vm_compute. reflexivity. Qed.

Example process_nearly_full :
  (run_process Toy.doc_dir ["dedup_index.py"; "index.xml"] Toy.nearly_full).2
    = 1.
Proof. vm_compute. reflexivity. Qed.

Example process_no_letter_B :
  (run_process Toy.doc_dir ["dedup_index.py"; "index.xml"] Toy.no_letter_B).2
    = 1.
Proof. vm_compute. reflexivity. Qed.

(** ** The claims at concrete inputs *)

(** C1 at the tree without a stylesheet. *)
Lemma stylesheet_error_leaves_input_file_witness :
  load_stylesheet Toy.doc_dir (files Toy.no_stylesheet) = None ∧
  ((∃ e, value (Toy.dedup "index.xml" Toy.no_stylesheet) = inl e) ∧
   List.filter changes_a_file (calls (Toy.dedup "index.xml" Toy.no_stylesheet))
     = [] ∧
   final (Toy.dedup "index.xml" Toy.no_stylesheet) = Toy.no_stylesheet).
Proof.
  split; [reflexivity |].
  apply (stylesheet_error_leaves_input_file (H := Toy.etree)
           Toy.doc_dir "index.xml" Toy.no_stylesheet).
  reflexivity.
Defined.

(** C5 at a path that is not in the build tree. *)
Lemma input_error_leaves_filesystem_witness :
  load (files Toy.build) "nope.xml" = None ∧
  (value (Toy.dedup "nope.xml" Toy.build) =
     inl (OSError Reading "nope.xml") ∧
   calls (Toy.dedup "nope.xml" Toy.build) = [Parse "nope.xml"] ∧
   final (Toy.dedup "nope.xml" Toy.build) = Toy.build).
Proof.
  split; [reflexivity |].
  apply (input_error_leaves_filesystem (H := Toy.etree)
           Toy.doc_dir "nope.xml" Toy.build).
  reflexivity.
Defined.

(** C3 as stated fails on the build tree: the string form of the transform
    result is AB, and the file holds AB and a line feed. *)
Lemma written_text_is_not_verbatim :
  value (Toy.dedup "index.xml" Toy.build) = inr tt ∧
  transformed_text Toy.doc_dir (files Toy.build) "index.xml" = Some "AB" ∧
  files (final (Toy.dedup "index.xml" Toy.build)) !! "index.xml"
    = Some ("AB" +:+ nl) ∧
  files (final (Toy.dedup "index.xml" Toy.build)) !! "index.xml" ≠ Some "AB".
Proof.
  split; [reflexivity |]. split; [reflexivity |]. split; [reflexivity |].
  vm_compute. discriminate.
Qed.

(** C3, as amended, on the build tree. *)
Lemma file_holds_str_and_line_feed_witness :
  value (Toy.dedup "index.xml" Toy.build) = inr tt ∧
  ∃ s,
    transformed_text Toy.doc_dir (files Toy.build) "index.xml" = Some s ∧
    files (final (Toy.dedup "index.xml" Toy.build)) !! "index.xml"
      = Some (s +:+ nl) ∧
    List.filter changes_a_file (calls (Toy.dedup "index.xml" Toy.build))
      = [Open "index.xml"; Write "index.xml" s; Write "index.xml" nl].
Proof.
  split; [reflexivity |].
  apply (file_holds_str_and_line_feed (H := Toy.etree)
           Toy.doc_dir "index.xml" Toy.build).
  reflexivity.
Defined.

(** C4 on the build tree. *)
Lemma successful_run_in_order_witness :
  value (Toy.dedup "index.xml" Toy.build) = inr tt ∧
  ∃ s,
    transformed_text Toy.doc_dir (files Toy.build) "index.xml" = Some s ∧
    calls (Toy.dedup "index.xml" Toy.build) =
      [ Parse "index.xml";
        Parse (stylesheet_path Toy.doc_dir); Compile;
        Apply;
        Open "index.xml"; Write "index.xml" s; Write "index.xml" nl;
        Close "index.xml";
        Stdout "Removed duplicated <compound> elements in index.xml";
        Stdout nl ].
Proof.
  split; [reflexivity |].
  apply (successful_run_in_order (H := Toy.etree)
           Toy.doc_dir "index.xml" Toy.build).
  reflexivity.
Defined.

(** C7 as stated fails when the file is the stylesheet itself.  Every
    stylesheet of the toy implementation is idempotent and both runs go
    through, yet the first run leaves C A in the file and the second run,
    whose stylesheet is what the first run wrote, leaves A. *)
Lemma second_run_on_the_stylesheet_differs :
  (∀ p : Toy.program, idempotent (H := Toy.etree) p) ∧
  value (Toy.dedup Toy.xsl Toy.self) = inr tt ∧
  value (Toy.dedup Toy.xsl (final (Toy.dedup Toy.xsl Toy.self))) = inr tt ∧
  files (final (Toy.dedup Toy.xsl Toy.self)) !! Toy.xsl
    = Some ("CA" +:+ nl) ∧
  files (final (Toy.dedup Toy.xsl (final (Toy.dedup Toy.xsl Toy.self))))
    !! Toy.xsl = Some ("A" +:+ nl) ∧
  files (final (Toy.dedup Toy.xsl (final (Toy.dedup Toy.xsl Toy.self))))
    ≠ files (final (Toy.dedup Toy.xsl Toy.self)).
Proof.
  split; [exact ToyFacts.every_program_idempotent |].
  do 4 (split; [reflexivity |]).
  intros Heq. apply (f_equal (λ fs : gmap string string, fs !! Toy.xsl)) in Heq.
  vm_compute in Heq. discriminate.
Qed.

(** C7, as amended, on the build tree. *)
Lemma second_run_leaves_same_text_witness :
  "index.xml" ≠ stylesheet_path Toy.doc_dir ∧
  (∀ transform,
     load_stylesheet Toy.doc_dir (files Toy.build) = Some transform →
     idempotent (H := Toy.etree) transform) ∧
  value (Toy.dedup "index.xml" Toy.build) = inr tt ∧
  (files (final (Toy.dedup "index.xml"
                   (final (Toy.dedup "index.xml" Toy.build))))
     = files (final (Toy.dedup "index.xml" Toy.build)) ∧
   List.filter changes_a_file
     (calls (Toy.dedup "index.xml"
               (final (Toy.dedup "index.xml" Toy.build))))
     ⊆ List.filter changes_a_file
         (calls (Toy.dedup "index.xml" Toy.build))).
Proof.
  split; [discriminate |].
  split; [intros transform _; apply ToyFacts.every_program_idempotent |].
  split; [reflexivity |].
  apply (second_run_leaves_same_text (H := Toy.etree)
           Toy.doc_dir "index.xml" Toy.build).
  - discriminate.
  - intros transform _. apply ToyFacts.every_program_idempotent.
  - reflexivity.
Defined.

(** C9 on the build tree: index.xml and other.xml give the same line. *)
Lemma confirmation_is_fixed_witness :
  value (Toy.dedup "index.xml" Toy.build) = inr tt ∧
  value (Toy.dedup "other.xml" Toy.build) = inr tt ∧
  (printed (calls (Toy.dedup "index.xml" Toy.build)) =
     "Removed duplicated <compound> elements in index.xml" +:+ nl ∧
   printed (calls (Toy.dedup "other.xml" Toy.build)) =
     printed (calls (Toy.dedup "index.xml" Toy.build))).
Proof.
  split; [reflexivity |]. split; [reflexivity |].
  apply (confirmation_is_fixed (H := Toy.etree)
           Toy.doc_dir "index.xml" "other.xml" Toy.build Toy.build);
    reflexivity.
Defined.

(** C10 for the script called with its own name alone. *)
Lemma no_argument_fails_first_witness :
  length ["dedup_index.py"] ≤ 1 ∧
  run_process Toy.doc_dir ["dedup_index.py"] Toy.build =
    (Outcome [] Toy.build (inl IndexError), 1).
Proof.
  split; [cbn; lia |].
  apply (no_argument_fails_first (H := Toy.etree)
           Toy.doc_dir ["dedup_index.py"] Toy.build).
  cbn. lia.
Defined.

(** * [xsl_transform] with any three paths *)

Section Transform.
Context `{Etree}.

Ltac run_step :=
  cbn [value calls final app name or_raise ret raise
       files unwritable unencodable room stdout set_files set_stdout
       mbind option_bind].

Ltac holds :=
  rewrite ?lookup_insert_eq; cbn [default from_option id];
  rewrite ?append_empty_l, ?insert_insert_eq.

Lemma set_files_insert_twice (path t1 t2 : string) (w : world) :
  set_files <[path := t2]> (set_files <[path := t1]> w)
    = set_files <[path := t2]> w.
Proof. unfold set_files; cbn. by rewrite insert_insert_eq. Qed.

(** The function comes to its closed form. *)
Lemma xsl_transform_closed_form (inDoc xslFile outDoc : string) (w : world) :
  xsl_transform inDoc xslFile outDoc w
    = transform_outcome inDoc xslFile outDoc w.
Proof.
  unfold xsl_transform, ET_parse, ET_XSLT, call_transform, with_open_w,
    open_w, print_file, file_write, file_close.
  unfold bind, finally, log, get_world, modify; run_step.
  unfold transform_outcome, load, parse_error.
  destruct (files w !! inDoc) as [text|]; run_step; [| done].
  destruct (parse_text text) as [doc|]; run_step; [| done].
  destruct (files w !! xslFile) as [xtext|]; run_step; [| done].
  destruct (parse_text xtext) as [xslt|]; run_step; [| done].
  destruct (XSLT xslt) as [transform|]; run_step; [| done].
  destruct (apply_xslt transform doc) as [r|]; run_step; [| done].
  destruct (decide (outDoc ∈ unwritable w)); run_step; [done |].
  destruct (str r) as [s|]; run_step; holds;
    [| by rewrite fits_empty].
  destruct (encodable (unencodable w) s); run_step; holds;
    [| by rewrite fits_empty].
  destruct (encodable (unencodable w) nl); run_step; holds.
  - destruct (fits (room w) outDoc (s +:+ nl)); run_step; holds;
      f_equal; unfold set_files; run_step; f_equal; by holds.
  - destruct (fits (room w) outDoc s); run_step; holds;
      f_equal; unfold set_files; run_step; f_equal; by holds.
Qed.

Lemma load_insert_ne (fs : gmap string string) (path other text : string) :
  path ≠ other → load (<[other := text]> fs) path = load fs path.
Proof. intros Hne. unfold load. by rewrite lookup_insert_ne. Qed.

Lemma parse_error_insert_ne
    (fs : gmap string string) (path other text : string) :
  path ≠ other → parse_error (<[other := text]> fs) path = parse_error fs path.
Proof. intros Hne. unfold parse_error. by rewrite lookup_insert_ne. Qed.

(** X1. [xsl_transform] with an output path of its own: when the text can be
    computed, the system lets [outDoc] be opened, the text and the line feed
    can be encoded and the device has room for them, the run returns after
    the eight calls below, and the world it leaves is the old one with
    [outDoc] holding the text and a line feed, whether or not [outDoc]
    existed, and whatever [inDoc] and [xslFile] are. *)
Theorem xsl_transform_to_any_file
    (inDoc xslFile outDoc : string) (w : world) (s : string) :
  result_text (files w) inDoc xslFile = Some s →
  outDoc ∉ unwritable w →
  encodable (unencodable w) s = true →
  encodable (unencodable w) nl = true →
  fits (room w) outDoc (s +:+ nl) = true →
  xsl_transform inDoc xslFile outDoc w =
    Outcome
      [ Parse inDoc; Parse xslFile; Compile; Apply;
        Open outDoc; Write outDoc s; Write outDoc nl; Close outDoc ]
      (set_files <[outDoc := s +:+ nl]> w)
      (inr tt).
Proof.
  intros Hs Hw Hcode Hnl Hroom. rewrite xsl_transform_closed_form.
  unfold transform_outcome, result_text in *.
  destruct (load (files w) inDoc) as [doc|]; [| done].
  destruct (load (files w) xslFile) as [xslt|]; [| done].
  cbn [mbind option_bind] in Hs.
  destruct (XSLT xslt) as [transform|]; [| done].
  cbn [mbind option_bind] in Hs.
  destruct (apply_xslt transform doc) as [r|]; [| done].
  cbn [mbind option_bind] in Hs.
  rewrite decide_False by done. by rewrite Hs, Hcode, Hnl, Hroom.
Qed.

(** X2. Whatever a run of [xsl_transform] comes to, it prints nothing,
    standard output and the permissions are as they were, and every path
    other than [outDoc] holds what it held. *)
Theorem xsl_transform_touches_only_outDoc
    (inDoc xslFile outDoc : string) (w : world) :
  List.filter is_stdout (calls (xsl_transform inDoc xslFile outDoc w)) = [] ∧
  stdout (final (xsl_transform inDoc xslFile outDoc w)) = stdout w ∧
  unwritable (final (xsl_transform inDoc xslFile outDoc w)) = unwritable w ∧
  (∀ path, path ≠ outDoc →
     files (final (xsl_transform inDoc xslFile outDoc w)) !! path
       = files w !! path).
Proof.
  rewrite xsl_transform_closed_form. unfold transform_outcome.
  repeat case_match; run_step; repeat (split; [done |]);
    intros path Hpath; try done; by rewrite lookup_insert_ne.
Qed.


(** X4. When everything up to the transform works and [outDoc] can be
    opened, but the result has no string form, the run raises with the file
    opened, nothing written and the file closed: [outDoc] is empty, also
    when it is the input file. *)
Theorem xsl_transform_str_failure
    (inDoc xslFile outDoc : string) (w : world)
    (doc : tree) (transform : xslt_program) (r : result_tree) :
  load (files w) inDoc = Some doc →
  load (files w) xslFile ≫= XSLT = Some transform →
  apply_xslt transform doc = Some r →
  str r = None →
  outDoc ∉ unwritable w →
  xsl_transform inDoc xslFile outDoc w =
    Outcome
      [ Parse inDoc; Parse xslFile; Compile; Apply;
        Open outDoc; Close outDoc ]
      (set_files <[outDoc := EmptyString]> w)
      (inl SerialisationError).
Proof.
  intros Hdoc HX Hr Hs Hw. rewrite xsl_transform_closed_form.
  unfold transform_outcome. rewrite Hdoc.
  destruct (load (files w) xslFile) as [xslt|]; [| done].
  cbn [mbind option_bind] in HX. rewrite HX, Hr.
  rewrite decide_False by done. by rewrite Hs.
Qed.

(** X5. The file object never stays open.  When the system lets [outDoc] be
    opened, the run closes as often as it opens; when it does not, the run
    neither writes nor closes; and a close, when there is one, names
    [outDoc] and is the last call. *)
Theorem xsl_transform_closes_what_it_opens
    (inDoc xslFile outDoc : string) (w : world) :
  (outDoc ∉ unwritable w →
     times is_close (calls (xsl_transform inDoc xslFile outDoc w))
       = times is_open (calls (xsl_transform inDoc xslFile outDoc w))) ∧
  (outDoc ∈ unwritable w →
     times is_close (calls (xsl_transform inDoc xslFile outDoc w)) = 0 ∧
     times is_write (calls (xsl_transform inDoc xslFile outDoc w)) = 0) ∧
  (times is_close (calls (xsl_transform inDoc xslFile outDoc w)) = 0 ∨
   last (calls (xsl_transform inDoc xslFile outDoc w))
     = Some (Close outDoc)).
Proof.
  rewrite xsl_transform_closed_form. unfold transform_outcome.
  repeat case_match; run_step;
    (split; [done |]); (split; [done |]); try (by left); by right.
Qed.

(** X6. Nothing of what [outDoc] held survives a run that returns: when
    [outDoc] is neither the input nor the stylesheet, the run comes to the
    same calls, world and return whatever text [outDoc] had before. *)
Theorem xsl_transform_forgets_old_output
    (inDoc xslFile outDoc : string) (w : world) (old : string) :
  inDoc ≠ outDoc → xslFile ≠ outDoc →
  value (xsl_transform inDoc xslFile outDoc w) = inr tt →
  xsl_transform inDoc xslFile outDoc (set_files <[outDoc := old]> w)
    = xsl_transform inDoc xslFile outDoc w.
Proof.
  intros Hin Hxsl. rewrite !xsl_transform_closed_form.
  unfold transform_outcome. run_step. rewrite !load_insert_ne by done.
  repeat case_match; run_step; try done.
  intros _. f_equal. apply set_files_insert_twice.
Qed.

(** The world a run leaves: the old one, or, when the file was closed, the
    old one with some text at [outDoc]. *)
Lemma transform_outcome_final (inDoc xslFile outDoc : string) (w : world) :
  if List.existsb is_close (calls (transform_outcome inDoc xslFile outDoc w))
  then ∃ text,
         final (transform_outcome inDoc xslFile outDoc w)
           = set_files <[outDoc := text]> w
  else final (transform_outcome inDoc xslFile outDoc w) = w.
Proof.
  unfold transform_outcome.
  repeat case_match; simplify_eq; cbn in *; try done; by eexists.
Qed.

(** A run from a world that differs at [outDoc] alone. *)
Lemma transform_outcome_insert
    (inDoc xslFile outDoc : string) (w : world) (text : string) :
  inDoc ≠ outDoc → xslFile ≠ outDoc →
  transform_outcome inDoc xslFile outDoc (set_files <[outDoc := text]> w) =
    Outcome
      (calls (transform_outcome inDoc xslFile outDoc w))
      (if List.existsb is_close
            (calls (transform_outcome inDoc xslFile outDoc w))
       then final (transform_outcome inDoc xslFile outDoc w)
       else set_files <[outDoc := text]> w)
      (value (transform_outcome inDoc xslFile outDoc w)).
Proof.
  intros Hin Hxsl. unfold transform_outcome. run_step.
  rewrite !load_insert_ne, !parse_error_insert_ne by done.
  repeat case_match; simplify_eq; cbn [List.existsb is_close orb] in *;
    try done; f_equal; apply set_files_insert_twice.
Qed.

(** X7. With an output path that is neither the input nor the stylesheet,
    running [xsl_transform] again on the world it left comes to the same
    calls, the same world and the same return or exception as the first run:
    no assumption on the stylesheet is needed, as neither input is
    touched. *)
Theorem xsl_transform_again
    (inDoc xslFile outDoc : string) (w : world) :
  inDoc ≠ outDoc → xslFile ≠ outDoc →
  xsl_transform inDoc xslFile outDoc
      (final (xsl_transform inDoc xslFile outDoc w))
    = xsl_transform inDoc xslFile outDoc w.
Proof.
  intros Hin Hxsl. rewrite !xsl_transform_closed_form.
  pose proof (transform_outcome_final inDoc xslFile outDoc w) as Hfinal.
  destruct (List.existsb is_close
              (calls (transform_outcome inDoc xslFile outDoc w))) eqn:Hclosed.
  - destruct Hfinal as [text Hfinal]. rewrite Hfinal at 1.
    rewrite transform_outcome_insert, Hclosed by done.
    by destruct (transform_outcome inDoc xslFile outDoc w).
  - by rewrite Hfinal.
Qed.

(** X8. Which exception a stylesheet that cannot be had gives, once the
    input has parsed: [OSError] for a file that is not there,
    [XMLSyntaxError] for text that is not well-formed, [XSLTParseError] for
    a document that is no stylesheet.  The transform is not called and the
    world is as it was. *)
Theorem xsl_transform_stylesheet_error
    (inDoc xslFile outDoc : string) (w : world) (doc : tree) :
  load (files w) inDoc = Some doc →
  load (files w) xslFile ≫= XSLT = None →
  value (xsl_transform inDoc xslFile outDoc w) =
    inl (match files w !! xslFile with
         | None => OSError Reading xslFile
         | Some text =>
             match parse_text text with
             | None => XMLSyntaxError xslFile
             | Some _ => XSLTParseError
             end
         end) ∧
  times is_apply (calls (xsl_transform inDoc xslFile outDoc w)) = 0 ∧
  final (xsl_transform inDoc xslFile outDoc w) = w.
Proof.
  intros Hdoc HX. rewrite xsl_transform_closed_form.
  unfold transform_outcome, parse_error. rewrite Hdoc.
  unfold load in *. destruct (files w !! xslFile) as [text|]; [| done].
  cbn [mbind option_bind] in *.
  destruct (parse_text text) as [xslt|]; [| done].
  cbn [mbind option_bind] in HX. by rewrite HX.
Qed.

End Transform.

(** ** [xsl_transform] at concrete inputs *)

(** X1 on the build tree, with an output file that does not exist yet. *)
Lemma xsl_transform_to_any_file_witness :
  result_text (files Toy.build) "index.xml" Toy.xsl = Some "AB" ∧
  ("out.xml" ∉ unwritable Toy.build) ∧
  encodable (unencodable Toy.build) "AB" = true ∧
  encodable (unencodable Toy.build) nl = true ∧
  fits (room Toy.build) "out.xml" ("AB" +:+ nl) = true ∧
  xsl_transform (H := Toy.etree) "index.xml" Toy.xsl "out.xml" Toy.build =
    Outcome
      [ Parse "index.xml"; Parse Toy.xsl; Compile; Apply;
        Open "out.xml"; Write "out.xml" "AB"; Write "out.xml" nl;
        Close "out.xml" ]
      (set_files <["out.xml" := "AB" +:+ nl]> Toy.build)
      (inr tt).
Proof.
  split; [reflexivity |].
  split; [apply (bool_decide_unpack _); vm_compute; exact I |].
  do 3 (split; [reflexivity |]).
  apply (xsl_transform_to_any_file (H := Toy.etree)
           "index.xml" Toy.xsl "out.xml" Toy.build "AB");
    try reflexivity.
  apply (bool_decide_unpack _); vm_compute; exact I.
Defined.


(** X4 on the tree whose stylesheet emits nothing, the output being the
    input file. *)
Lemma xsl_transform_str_failure_witness :
  load (H := Toy.etree) (files Toy.emits_nothing) "index.xml"
    = Some [Toy.A; Toy.A; Toy.B] ∧
  load (H := Toy.etree) (files Toy.emits_nothing) Toy.xsl ≫= XSLT
    = Some (Toy.Emit []) ∧
  apply_xslt (Etree := Toy.etree) (Toy.Emit []) [Toy.A; Toy.A; Toy.B]
    = Some [] ∧
  str (Etree := Toy.etree) [] = None ∧
  ("index.xml" ∉ unwritable Toy.emits_nothing) ∧
  xsl_transform (H := Toy.etree)
      "index.xml" Toy.xsl "index.xml" Toy.emits_nothing =
    Outcome
      [ Parse "index.xml"; Parse Toy.xsl; Compile; Apply;
        Open "index.xml"; Close "index.xml" ]
      (set_files <["index.xml" := EmptyString]> Toy.emits_nothing)
      (inl SerialisationError).
Proof.
  do 4 (split; [reflexivity |]).
  split; [apply (bool_decide_unpack _); vm_compute; exact I |].
  apply (xsl_transform_str_failure (H := Toy.etree)
           "index.xml" Toy.xsl "index.xml" Toy.emits_nothing
           [Toy.A; Toy.A; Toy.B] (Toy.Emit []) []);
    try reflexivity.
  apply (bool_decide_unpack _); vm_compute; exact I.
Defined.

(** X6 on the build tree, the output file holding stale text. *)
Lemma xsl_transform_forgets_old_output_witness :
  "index.xml" ≠ "out.xml" ∧ Toy.xsl ≠ "out.xml" ∧
  value (xsl_transform (H := Toy.etree)
           "index.xml" Toy.xsl "out.xml" Toy.build) = inr tt ∧
  xsl_transform (H := Toy.etree) "index.xml" Toy.xsl "out.xml"
      (set_files <["out.xml" := "stale"]> Toy.build)
    = xsl_transform (H := Toy.etree)
        "index.xml" Toy.xsl "out.xml" Toy.build.
Proof.
  split; [discriminate |]. split; [discriminate |].
  split; [reflexivity |].
  apply (xsl_transform_forgets_old_output (H := Toy.etree)
           "index.xml" Toy.xsl "out.xml" Toy.build "stale");
    [discriminate | discriminate | reflexivity].
Defined.

(** X7 on the build tree. *)
Lemma xsl_transform_again_witness :
  "index.xml" ≠ "out.xml" ∧ Toy.xsl ≠ "out.xml" ∧
  xsl_transform (H := Toy.etree) "index.xml" Toy.xsl "out.xml"
      (final (xsl_transform (H := Toy.etree)
                "index.xml" Toy.xsl "out.xml" Toy.build))
    = xsl_transform (H := Toy.etree)
        "index.xml" Toy.xsl "out.xml" Toy.build.
Proof.
  split; [discriminate |]. split; [discriminate |].
  apply (xsl_transform_again (H := Toy.etree)
           "index.xml" Toy.xsl "out.xml" Toy.build);
    discriminate.
Defined.

(** X8 on the tree without a stylesheet. *)
Lemma xsl_transform_stylesheet_error_witness :
  load (H := Toy.etree) (files Toy.no_stylesheet) "index.xml"
    = Some [Toy.A; Toy.A; Toy.B] ∧
  load (H := Toy.etree) (files Toy.no_stylesheet) Toy.xsl ≫= XSLT = None ∧
  value (xsl_transform (H := Toy.etree)
           "index.xml" Toy.xsl "out.xml" Toy.no_stylesheet)
    = inl (OSError Reading Toy.xsl) ∧
  times is_apply
    (calls (xsl_transform (H := Toy.etree)
              "index.xml" Toy.xsl "out.xml" Toy.no_stylesheet)) = 0 ∧
  final (xsl_transform (H := Toy.etree)
           "index.xml" Toy.xsl "out.xml" Toy.no_stylesheet)
    = Toy.no_stylesheet.
Proof.
  split; [reflexivity |]. split; [reflexivity |].
  apply (xsl_transform_stylesheet_error (H := Toy.etree)
           "index.xml" Toy.xsl "out.xml" Toy.no_stylesheet
           [Toy.A; Toy.A; Toy.B]);
    reflexivity.
Defined.
